(** * A Node.js CGI handler: header gate, error interceptor, body reader

    Shallow embedding of [index.js].  The script keeps one module-level
    variable ([httpHeader]), writes its response with [console.log] and, for a
    POST request, drains [process.stdin] before it answers.  The process state
    is threaded explicitly; [process.stdout] is kept as the sequence of writes
    made by [console.log], one element per call.  The [catch] of the entry
    point and the [uncaughtException] hook both hand the failure to
    [onError].

    A JavaScript string is kept as the bytes of its UTF-8 form, the bytes
    [process.stdout] sends for it: the strings of the script are literals,
    environment values and decoded input, all well formed, so that appending,
    comparing and testing for the empty string act on these bytes as they do
    on the strings. *)

From stdpp Require Import gmap strings list.

(** ** Characters that cannot be typed inside a literal *)

(** The line feed, [\n] in the JavaScript source. *)
Definition nl : string := String (Ascii.ascii_of_nat 10) "".

(** The double quote. *)
Definition dq : string := String (Ascii.ascii_of_nat 34) "".

(** A template literal that spans several lines, given line by line. *)
Definition lines (ls : list string) : string := String.concat nl ls.

(** ** Buffers *)

(** [process.stdin] has no encoding set, so each chunk it yields is a
    [Buffer] of raw bytes. *)
Abbreviation Buffer := (list Byte.byte).

(** [Buffer.from(s)]: the bytes of a string. *)
Definition Buffer_from (s : string) : Buffer := String.list_byte_of_string s.

(** U+FFFD, which stands for bytes that are not UTF-8. *)
Definition replacement : string :=
  String.string_of_list_byte [Byte.xef; Byte.xbf; Byte.xbd].

(** A character begun but not finished: the bytes read so far, how many
    more are needed after the next one, and the range the next one must lie
    in. *)
Record sequence := Sequence {
  seen : list Byte.byte;
  more : nat;
  lower : N;
  upper : N
}.

Definition within (lo hi : N) (b : Byte.byte) : bool :=
  (lo <=? Byte.to_N b)%N && (Byte.to_N b <=? hi)%N.

(** A byte met between two characters: an ASCII byte is a character, a
    lead byte opens a sequence of two, three or four bytes (without the
    overlong forms, the surrogates and what lies past U+10FFFF), any other
    byte is replaced. *)
Definition lead (b : Byte.byte) : string * option sequence :=
  if within 0x00 0x7F b then (String.string_of_list_byte [b], None)
  else if within 0xC2 0xDF b then
    ("", Some {| seen := [b]; more := 0; lower := 0x80; upper := 0xBF |})
  else if within 0xE0 0xEF b then
    ("", Some {| seen := [b]; more := 1;
                 lower := if within 0xE0 0xE0 b then 0xA0 else 0x80;
                 upper := if within 0xED 0xED b then 0x9F else 0xBF |})
  else if within 0xF0 0xF4 b then
    ("", Some {| seen := [b]; more := 2;
                 lower := if within 0xF0 0xF0 b then 0x90 else 0x80;
                 upper := if within 0xF4 0xF4 b then 0x8F else 0xBF |})
  else (replacement, None).

(** UTF-8 decoding as Node.js does it (the decoder of the Encoding
    Standard): a well-formed character is kept; a sequence broken by a byte
    out of range, or by the end of the buffer, is replaced by one U+FFFD and
    the breaking byte is read again as the start of a character. *)
Fixpoint utf8_decode (state : option sequence) (bytes : Buffer) : string :=
  match bytes with
  | [] =>
      match state with
      | Some _ => replacement
      | None => ""
      end
  | b :: bytes =>
      match state with
      | None => let '(text, state) := lead b in text +:+ utf8_decode state bytes
      | Some s =>
          if within (lower s) (upper s) b then
            match more s with
            | 0 => String.string_of_list_byte (seen s ++ [b])
                   +:+ utf8_decode None bytes
            | S n =>
                utf8_decode
                  (Some {| seen := seen s ++ [b]; more := n;
                           lower := 0x80; upper := 0xBF |}) bytes
            end
          else
            let '(text, state) := lead b in
            replacement +:+ text +:+ utf8_decode state bytes
      end
  end.

(** [chunk.toString()], which [postBody += chunk] calls on a [Buffer]: the
    buffer decoded as UTF-8, on its own. *)
Definition Buffer_toString (chunk : Buffer) : string := utf8_decode None chunk.

(** A byte of the ASCII range. *)
Definition is_ascii (b : Byte.byte) : Prop := (Byte.to_N b ≤ 0x7F)%N.

(** ** [httpHeaders]: the table of header definitions *)

Module httpHeaders.

Record header := Header { type : string; httpHeader : string }.

Definition plain : header :=
  {| type := "plain";
     httpHeader := "Content-Type: text/plain; charset=UTF-8" +:+ nl +:+ nl |}.

Definition html : header :=
  {| type := "html";
     httpHeader := "Content-Type: text/html; charset=UTF-8" +:+ nl +:+ nl |}.

End httpHeaders.

(** [httpHeaders] is an object literal, so its prototype is
    [Object.prototype] and a bracket lookup [httpHeaders[type]] also finds the
    members inherited from it.  These are the property names of
    [Object.prototype] (ECMAScript, with the legacy accessors of Annex B that
    Node.js ships). *)
Definition objectPrototypeKeys : list string :=
  [ "constructor"; "__defineGetter__"; "__defineSetter__"; "hasOwnProperty";
    "__lookupGetter__"; "__lookupSetter__"; "isPrototypeOf";
    "propertyIsEnumerable"; "toString"; "valueOf"; "__proto__";
    "toLocaleString" ].

(** What a lookup in [httpHeaders] can return besides [undefined]: one of
    the two own definitions, or a member inherited from [Object.prototype] (a
    built-in function, or the prototype object itself for [__proto__]). *)
Inductive member :=
| Own (e : httpHeaders.header)
| Inherited (key : string).

(** [httpHeaders[type]]; [None] is [undefined]. *)
Definition httpHeaders_get (type : string) : option member :=
  if decide (type = "plain") then Some (Own httpHeaders.plain)
  else if decide (type = "html") then Some (Own httpHeaders.html)
  else if decide (type ∈ objectPrototypeKeys) then Some (Inherited type)
  else None.

(** The request environment, [process.env]. *)
Abbreviation environ := (gmap string string).

(** The request of the end-to-end scenario. *)
Definition scenario_env : environ :=
  {[ "REQUEST_METHOD" := "POST"; "SCRIPT_NAME" := "/app.cgi" ]}.

(** A runtime to run examples in: no object besides [process.env] is ever
    met, and [process.env] prints as a fixed mark.  The properties below hold
    for every runtime; the examples fix this one. *)
Definition no_object : Type := Empty_set.

Definition inspect_no_object (o : no_object) : string := match o with end.

Definition inspect_env_mark (env : environ) : string := "[process.env]".

(** What [util.inspect] prints for an environment of a few variables whose
    names are identifiers and whose values need no escape: one line,
    [{ NAME: 'value', NAME: 'value' }], each value in single quotes.  The
    variables come in the order of the process environment, which the map
    does not keep and [order] gives. *)
Definition inspect_property (env : environ) (name : string) : option string :=
  (λ value, name +:+ ": '" +:+ value +:+ "'") <$> env !! name.

Definition inspect_env_line (order : list string) (env : environ) : string :=
  match omap (inspect_property env) order with
  | [] => "{}"
  | properties => "{ " +:+ String.concat ", " properties +:+ " }"
  end.

(** ** Searching a text *)

Fixpoint starts_with (start text : string) : bool :=
  match start, text with
  | "", _ => true
  | String a start, String b text =>
      if decide (a = b) then starts_with start text else false
  | String _ _, "" => false
  end.

(** [text.includes(needle)] *)
Fixpoint includes (needle text : string) : bool :=
  starts_with needle text
  || match text with
     | "" => false
     | String _ text => includes needle text
     end.

Section Program.

(** Objects the script only ever prints (an [Error] caught by the
    interceptor, say) and the text [util.inspect] gives for them and for
    [process.env] belong to the Node.js runtime, not to the script. *)
Context {object : Type}.
Variable inspect_object : object → string.
Variable inspect_env : environ → string.

(** ** JavaScript values handled by the script *)

Inductive value :=
| VUndefined
| VNull
| VString (s : string)
| VEnv (env : environ)
| VObject (o : object).

(** [!!v] *)
Definition truthy (v : value) : bool :=
  match v with
  | VUndefined | VNull => false
  | VString s => negb (bool_decide (s = ""))
  | VEnv _ | VObject _ => true
  end.

(** [v !== null] *)
Definition strict_ne_null (v : value) : bool :=
  match v with
  | VNull => false
  | _ => true
  end.

(** [v === s] for a string [s], as the [switch] in [onError] compares. *)
Definition strict_eq_string (v : value) (s : string) : bool :=
  match v with
  | VString s' => bool_decide (s' = s)
  | _ => false
  end.

(** [specifiedHttpHeader.httpHeader] and [specifiedHttpHeader.type]: the
    inherited members of [Object.prototype] have neither property. *)
Definition member_httpHeader (m : member) : value :=
  match m with
  | Own e => VString (httpHeaders.httpHeader e)
  | Inherited _ => VUndefined
  end.

Definition member_type (m : member) : value :=
  match m with
  | Own e => VString (httpHeaders.type e)
  | Inherited _ => VUndefined
  end.

(** ** [console.log] *)

(** The text [console.log] prints for one argument: a string as it is,
    anything else through [util.inspect]. *)
Definition format (v : value) : string :=
  match v with
  | VUndefined => "undefined"
  | VNull => "null"
  | VString s => s
  | VEnv env => inspect_env env
  | VObject o => inspect_object o
  end.

(** Standard input as the script sees it: data chunks, then the end of the
    stream or a stream failure. *)
Inductive stdin_event :=
| Data (chunk : Buffer)
| Eof
| StreamError (error : value).

(** The process: the module-level [httpHeader], the writes made to
    [process.stdout] so far, and what [process.stdin] has yet to deliver. *)
Record process := Process {
  httpHeader : value;
  stdout : list string;
  stdin : list stdin_event
}.

(** [let httpHeader = null;] and nothing written yet. *)
Definition init (input : list stdin_event) : process :=
  {| httpHeader := VNull; stdout := []; stdin := input |}.

(** The bytes the host server receives. *)
Definition stdout_text (p : process) : string := String.concat "" (stdout p).

(** [console.log(...args)]: the arguments separated by one space, then a
    line feed.  A first argument followed by others is a format string; in
    every such call of the script it is a literal without a percent sign, so
    no directive is ever expanded. *)
Definition console_log (args : list value) (p : process) : process :=
  {| httpHeader := httpHeader p;
     stdout := stdout p ++ [String.concat " " (format <$> args) +:+ nl];
     stdin := stdin p |}.

(** ** [writeHttpHeader] *)

Definition writeHttpHeader (type : string) (p : process) : process :=
  if strict_ne_null (httpHeader p) then p
  else
    let specifiedHttpHeader :=
      default (Own httpHeaders.plain) (httpHeaders_get type) in
    let p := console_log [member_httpHeader specifiedHttpHeader] p in
    {| httpHeader := member_type specifiedHttpHeader;
       stdout := stdout p;
       stdin := stdin p |}.

(** Successive calls of the header gate. *)
Definition writeHttpHeader_calls (types : list string) (p : process) : process :=
  foldl (λ p type, writeHttpHeader type p) p types.

(** ** [onError] *)

Definition onError (error : value) (p : process) : process :=
  let p :=
    if negb (truthy (httpHeader p))
    then writeHttpHeader (httpHeaders.type httpHeaders.plain) p
    else p in
  if strict_eq_string (httpHeader p) (httpHeaders.type httpHeaders.html)
  then console_log
         [ VString ("<pre style=" +:+ dq +:+ "color: #f00; font-weight: bold;"
                    +:+ dq +:+ ">Error :<br>");
           error;
           VString "</pre>" ] p
  else console_log [ VString (nl +:+ "Error :"); error ] p.

(** ** [readPostBody] *)

(** How an [await] on the promise of [readPostBody] ends: resolved with the
    body, rejected by a stream failure, or never settled because the stream
    was not closed. *)
Inductive completion :=
| Resolved (postBody : string)
| Rejected (error : value)
| Pending.

(** [for await(const chunk of process.stdin) { postBody += chunk; }] *)
Fixpoint readPostBody_loop (postBody : string) (input : list stdin_event)
  : completion * list stdin_event :=
  match input with
  | [] => (Pending, [])
  | Data chunk :: rest =>
      readPostBody_loop (postBody +:+ Buffer_toString chunk) rest
  | Eof :: rest => (Resolved postBody, rest)
  | StreamError error :: rest => (Rejected error, rest)
  end.

Definition readPostBody (p : process) : completion * process :=
  let '(result, rest) := readPostBody_loop "" (stdin p) in
  (result, {| httpHeader := httpHeader p; stdout := stdout p; stdin := rest |}).

(** ** [main] *)

(** [`${process.env.NAME}`]: an unset variable reads as [undefined]. *)
Definition interpolate (v : option string) : string := default "undefined" v.

(** The parameter [postBody] of [main]: [None] is a call without argument,
    which leaves the parameter [undefined]. *)
Definition argument (postBody : option string) : value :=
  from_option VString VUndefined postBody.

Definition html_preamble : string :=
  lines [ "<!DOCTYPE html>";
          "<html lang=" +:+ dq +:+ "ja" +:+ dq +:+ ">";
          "  <head>";
          "    <meta charset=" +:+ dq +:+ "UTF-8" +:+ dq +:+ ">";
          "    <meta http-equiv=" +:+ dq +:+ "X-UA-Compatible" +:+ dq
            +:+ " content=" +:+ dq +:+ "IE=Edge" +:+ dq +:+ ">";
          "    <meta name=" +:+ dq +:+ "viewport" +:+ dq +:+ " content=" +:+ dq
            +:+ "width=device-width, initial-scale=1" +:+ dq +:+ ">";
          "    <title>Hello Node.js CGI</title>";
          "  </head>";
          "  <body>" ].

Definition html_form (env : environ) : string :=
  lines [ "<form action=" +:+ dq +:+ interpolate (env !! "SCRIPT_NAME") +:+ dq
            +:+ " method=" +:+ dq +:+ "POST" +:+ dq +:+ ">";
          "  <input type=" +:+ dq +:+ "text" +:+ dq +:+ " name=" +:+ dq
            +:+ "text" +:+ dq +:+ " value=" +:+ dq +:+ dq +:+ ">";
          "  <button name=" +:+ dq +:+ "submit-btn" +:+ dq +:+ " value=" +:+ dq
            +:+ "submit-btn-value" +:+ dq +:+ ">Post Submit</button>";
          "</form>" ].

Definition html_epilogue : string :=
  lines [ "  </body>"; "</html>" ].

Definition main (env : environ) (postBody : option string) (p : process)
  : process :=
  let p := writeHttpHeader (httpHeaders.type httpHeaders.html) p in
  let p := console_log [VString html_preamble] p in
  let p := console_log [VString "<h1>Hello Node.js CGI</h1>"] p in
  let p := console_log [VString "<pre>"; VEnv env; VString "</pre>"] p in
  let p :=
    if truthy (argument postBody) then
      let p := console_log [VString "<hr>"] p in
      let p := console_log [VString "<h2>Post Body</h2>"] p in
      console_log [VString "<pre>"; argument postBody; VString "</pre>"] p
    else p in
  let p := console_log [VString "<hr>"] p in
  let p := console_log [VString "<h2>POST Test</h2>"] p in
  let p := console_log [VString (html_form env)] p in
  console_log [VString html_epilogue] p.

(** ** The entry point (the [async] function called at the end of the file) *)

Definition entry (env : environ) (p : process) : process :=
  if bool_decide (env !! "REQUEST_METHOD" = Some "POST") then
    match readPostBody p with
    | (Resolved postBody, p) => main env (Some postBody) p
    | (Rejected error, p) => onError error p
    | (Pending, p) => p
    end
  else main env None p.

(** ** The [uncaughtException] hook *)

(** [process.on('uncaughtException', (error) => { onError(error); })] *)
Definition uncaughtException (error : value) (p : process) : process :=
  onError error p.

(** ** Observations on the output *)

(** What [console.log] writes for the header text of an entry. *)
Definition header_write (e : httpHeaders.header) : string :=
  httpHeaders.httpHeader e +:+ nl.

(** A write that is one of the two header blocks. *)
Definition is_header_write (w : string) : Prop :=
  w = header_write httpHeaders.plain ∨ w = header_write httpHeaders.html.

(** How many header blocks have been written. *)
Definition header_blocks (p : process) : nat :=
  length (filter is_header_write (stdout p)).

(** [needle] occurs in [text]. *)
Definition contains (needle text : string) : Prop :=
  ∃ before after, text = before +:+ needle +:+ after.

(** [text] starts with [start]. *)
Definition begins_with (start text : string) : Prop :=
  ∃ after, text = start +:+ after.

(** The entry a call selects when the name is not one inherited from
    [Object.prototype]. *)
Definition selected (type : string) : httpHeaders.header :=
  if decide (type = "html") then httpHeaders.html else httpHeaders.plain.

(** * Properties *)

(** ** Strings *)

Lemma append_cons a s t : String a s +:+ t = String a (s +:+ t).
Proof. reflexivity. Qed.

Lemma append_nil_r s : s +:+ "" = s.
Proof. induction s as [|a s IH]; [done|]. by rewrite append_cons, IH. Qed.

Lemma append_assoc s t u : (s +:+ t) +:+ u = s +:+ t +:+ u.
Proof. induction s as [|a s IH]; [done|]. by rewrite !append_cons, IH. Qed.

Lemma concat_cons w ws : String.concat "" (w :: ws) = w +:+ String.concat "" ws.
Proof. destruct ws; [by rewrite append_nil_r | done]. Qed.

Lemma concat_app ws1 ws2 :
  String.concat "" (ws1 ++ ws2) = String.concat "" ws1 +:+ String.concat "" ws2.
Proof.
  induction ws1 as [|w ws1 IH]; [done|].
  rewrite <- app_comm_cons, !concat_cons, IH. by rewrite append_assoc.
Qed.

Lemma contains_concat needle w ws :
  w ∈ ws → contains needle w → contains needle (String.concat "" ws).
Proof.
  intros [ws1 [ws2 ->]]%list_elem_of_split (before & after & ->).
  exists (String.concat "" ws1 +:+ before), (after +:+ String.concat "" ws2).
  rewrite concat_app, concat_cons. by rewrite !append_assoc.
Qed.

Lemma contains_trans inner middle outer :
  contains inner middle → contains middle outer → contains inner outer.
Proof.
  intros (b1 & a1 & ->) (b2 & a2 & ->).
  exists (b2 +:+ b1), (a1 +:+ a2). by rewrite !append_assoc.
Qed.

Lemma starts_with_append start after : starts_with start (start +:+ after) = true.
Proof.
  induction start as [|a start IH]; [by destruct after|].
  rewrite append_cons; cbn [starts_with]. by rewrite decide_True.
Qed.

(** What [includes] does not find is not there. *)
Lemma contains_includes needle text :
  contains needle text → includes needle text = true.
Proof.
  intros (before & after & ->).
  induction before as [|a before IH].
  - change ("" +:+ needle +:+ after) with (needle +:+ after).
    destruct (needle +:+ after) eqn:E; cbn [includes]; rewrite <- E;
      by rewrite starts_with_append.
  - rewrite append_cons; cbn [includes]. rewrite IH. apply orb_true_r.
Qed.

Lemma begins_with_contains start text : begins_with start text → contains start text.
Proof. intros [after ->]. by exists "", after. Qed.

(** Texts built by [console.log] are equal once the appends are nested the
    same way. *)
Ltac text_eq :=
  cbv [String.concat fmap list_fmap format];
  rewrite ?append_assoc; reflexivity.

Lemma snoc2 {A} (l : list A) a b : (l ++ [a]) ++ [b] = l ++ [a; b].
Proof. by rewrite <- (assoc_L (++)). Qed.

(** ** The header gate *)

(** Once [httpHeader] is not [null], a call changes nothing. *)
Lemma writeHttpHeader_noop type p :
  httpHeader p ≠ VNull → writeHttpHeader type p = p.
Proof.
  intros Hset. unfold writeHttpHeader.
  destruct (httpHeader p) eqn:E; try done; by destruct p.
Qed.

Lemma writeHttpHeader_calls_noop types p :
  httpHeader p ≠ VNull → writeHttpHeader_calls types p = p.
Proof.
  intros Hset. induction types as [|type types IH]; [done|].
  unfold writeHttpHeader_calls in *; cbn [foldl].
  by rewrite writeHttpHeader_noop.
Qed.

Lemma httpHeaders_get_own type :
  type ∉ objectPrototypeKeys →
  default (Own httpHeaders.plain) (httpHeaders_get type) = Own (selected type).
Proof.
  intros Hown. unfold httpHeaders_get, selected.
  repeat case_decide; subst; done.
Qed.

(** The first call, with a name that is not inherited: one write, the header
    block of the selected entry, and the state records its type. *)
Lemma writeHttpHeader_first type p :
  httpHeader p = VNull → type ∉ objectPrototypeKeys →
  writeHttpHeader type p =
    {| httpHeader := VString (httpHeaders.type (selected type));
       stdout := stdout p ++ [header_write (selected type)];
       stdin := stdin p |}.
Proof.
  intros Hnull Hown. unfold writeHttpHeader.
  by rewrite Hnull, httpHeaders_get_own.
Qed.

(** Any number of calls after such a first call leave what it did: exactly
    one header block, that of the first call, and a state that no longer
    moves. *)
Lemma writeHttpHeader_calls_first type types p :
  httpHeader p = VNull → type ∉ objectPrototypeKeys →
  writeHttpHeader_calls (type :: types) p = writeHttpHeader type p
  ∧ stdout (writeHttpHeader_calls (type :: types) p)
    = stdout p ++ [header_write (selected type)]
  ∧ httpHeader (writeHttpHeader_calls (type :: types) p)
    = VString (httpHeaders.type (selected type)).
Proof.
  intros Hnull Hown.
  assert (writeHttpHeader_calls (type :: types) p = writeHttpHeader type p) as ->.
  { unfold writeHttpHeader_calls; cbn [foldl].
    apply writeHttpHeader_calls_noop. by rewrite writeHttpHeader_first. }
  by rewrite writeHttpHeader_first.
Qed.

(** The state never goes back to [null], and a state that is a string stays
    what it is. *)
Lemma httpHeader_monotone types p :
  httpHeader p ≠ VNull → httpHeader (writeHttpHeader_calls types p) = httpHeader p.
Proof. intros Hset. by rewrite writeHttpHeader_calls_noop. Qed.

(** An unrecognised name that is not inherited falls back to [plain]. *)
Lemma writeHttpHeader_fallback type p :
  httpHeader p = VNull → type ≠ "plain" → type ≠ "html" →
  type ∉ objectPrototypeKeys →
  writeHttpHeader type p =
    {| httpHeader := VString "plain";
       stdout := stdout p ++ [header_write httpHeaders.plain];
       stdin := stdin p |}.
Proof.
  intros Hnull _ Hhtml Hown. rewrite writeHttpHeader_first by done.
  unfold selected. by case_decide.
Qed.

(** The two calls the script itself makes. *)
Lemma writeHttpHeader_plain p :
  httpHeader p = VNull →
  writeHttpHeader "plain" p =
    {| httpHeader := VString "plain";
       stdout := stdout p ++ [header_write httpHeaders.plain];
       stdin := stdin p |}.
Proof. intros Hnull. unfold writeHttpHeader. by rewrite Hnull. Qed.

Lemma writeHttpHeader_html p :
  httpHeader p = VNull →
  writeHttpHeader "html" p =
    {| httpHeader := VString "html";
       stdout := stdout p ++ [header_write httpHeaders.html];
       stdin := stdin p |}.
Proof. intros Hnull. unfold writeHttpHeader. by rewrite Hnull. Qed.

(** C1, at a first call whose name is inherited from [Object.prototype]:
    after [writeHttpHeader("toString")], [writeHttpHeader("html")] and
    [writeHttpHeader("plain")] the only write is the line [undefined], no
    header block was written at all, and the state is [undefined]. *)
Theorem header_gate_inherited_first_call :
  let p := writeHttpHeader_calls ["toString"; "html"; "plain"] (init []) in
  stdout p = ["undefined" +:+ nl]
  ∧ httpHeader p = VUndefined
  ∧ header_blocks p = 0.
Proof. cbv zeta. split_and!; reflexivity. Qed.

(** C6, at the unrecognised name [toString]: the lookup finds
    [Object.prototype.toString], so the call prints [undefined] instead of
    the plain header block and leaves the state [undefined], not [plain]. *)
Theorem writeHttpHeader_toString_not_plain :
  httpHeaders_get "toString" = Some (Inherited "toString")
  ∧ writeHttpHeader "toString" (init []) =
      {| httpHeader := VUndefined;
         stdout := ["undefined" +:+ nl];
         stdin := [] |}
  ∧ stdout (writeHttpHeader "toString" (init []))
      ≠ [header_write httpHeaders.plain]
  ∧ httpHeader (writeHttpHeader "toString" (init [])) ≠ VString "plain".
Proof. split_and!; try reflexivity; discriminate. Qed.

(** C7, as the code has it: on its first call [writeHttpHeader] makes one
    write.  For [plain] it is the line
    [Content-Type: text/plain; charset=UTF-8], the blank line that ends the
    header block, and one more line feed, the one [console.log] adds after
    its argument; for [html] the same with [text/html].  Nothing else is
    written. *)
Theorem writeHttpHeader_first_write p :
  httpHeader p = VNull →
  stdout (writeHttpHeader "plain" p)
    = stdout p ++ ["Content-Type: text/plain; charset=UTF-8" +:+ nl +:+ nl +:+ nl]
  ∧ stdout (writeHttpHeader "html" p)
    = stdout p ++ ["Content-Type: text/html; charset=UTF-8" +:+ nl +:+ nl +:+ nl]
  ∧ httpHeader (writeHttpHeader "plain" p) = VString "plain"
  ∧ httpHeader (writeHttpHeader "html" p) = VString "html".
Proof.
  intros Hnull. unfold writeHttpHeader. rewrite Hnull. split_and!; reflexivity.
Qed.

(** ** The error interceptor *)

Lemma header_blocks_app p q ws :
  stdout q = stdout p ++ ws →
  header_blocks q = header_blocks p + length (filter is_header_write ws).
Proof.
  intros Hout. unfold header_blocks. by rewrite Hout, filter_app, length_app.
Qed.

(** The two ways [onError] runs in a process whose headers are in order. *)
Lemma onError_null error p :
  httpHeader p = VNull →
  onError error p =
    {| httpHeader := VString "plain";
       stdout := stdout p ++
         [ header_write httpHeaders.plain;
           nl +:+ "Error : " +:+ format error +:+ nl ];
       stdin := stdin p |}.
Proof.
  intros Hnull. unfold onError. rewrite Hnull.
  assert (negb (truthy VNull) = true) as -> by reflexivity.
  change (httpHeaders.type httpHeaders.plain) with "plain".
  rewrite writeHttpHeader_plain by done. cbn [httpHeader].
  assert (strict_eq_string (VString "plain")
            (httpHeaders.type httpHeaders.html) = false) as -> by reflexivity.
  unfold console_log; cbn [httpHeader stdout stdin].
  by rewrite snoc2.
Qed.

Lemma onError_html error p :
  httpHeader p = VString "html" →
  onError error p =
    {| httpHeader := VString "html";
       stdout := stdout p ++
         [ "<pre style=" +:+ dq +:+ "color: #f00; font-weight: bold;" +:+ dq
             +:+ ">Error :<br> " +:+ format error +:+ " </pre>" +:+ nl ];
       stdin := stdin p |}.
Proof.
  intros Hhtml. unfold onError. rewrite Hhtml.
  assert (negb (truthy (VString "html")) = false) as -> by reflexivity.
  rewrite Hhtml.
  assert (strict_eq_string (VString "html")
            (httpHeaders.type httpHeaders.html) = true) as -> by reflexivity.
  unfold console_log. rewrite Hhtml. text_eq.
Qed.

(** C2: called while [httpHeader] is still [null], [onError] writes the
    plain-text header block and then the line [Error :] followed by the
    error; the state becomes [plain].  These are its only two writes: one
    header block, and no [<pre>] error block. *)
Theorem onError_before_header error p :
  httpHeader p = VNull →
  onError error p =
    {| httpHeader := VString "plain";
       stdout := stdout p ++
         [ "Content-Type: text/plain; charset=UTF-8" +:+ nl +:+ nl +:+ nl;
           nl +:+ "Error : " +:+ format error +:+ nl ];
       stdin := stdin p |}
  ∧ header_blocks (onError error p) = header_blocks p + 1.
Proof.
  intros Hnull. rewrite onError_null by done. split; [done|].
  by erewrite header_blocks_app by reflexivity.
Qed.

(** C3: called after the [html] header was written, [onError] makes one
    write, the red [<pre>] block holding the error; it writes no header block
    and leaves the state [html]. *)
Theorem onError_after_html_header error p :
  httpHeader p = VString "html" →
  onError error p =
    {| httpHeader := VString "html";
       stdout := stdout p ++
         [ "<pre style=" +:+ dq +:+ "color: #f00; font-weight: bold;" +:+ dq
             +:+ ">Error :<br> " +:+ format error +:+ " </pre>" +:+ nl ];
       stdin := stdin p |}
  ∧ header_blocks (onError error p) = header_blocks p.
Proof.
  intros Hhtml. rewrite onError_html by done. split; [done|].
  erewrite header_blocks_app by reflexivity.
  change (length (filter _ _)) with 0. lia.
Qed.

(** ** Decoding *)

Lemma string_of_list_byte_app (b1 b2 : Buffer) :
  String.string_of_list_byte (b1 ++ b2)
  = String.string_of_list_byte b1 +:+ String.string_of_list_byte b2.
Proof.
  induction b1 as [|b b1 IH]; [done|].
  unfold String.string_of_list_byte in *. cbn [app map String.string_of_list_ascii].
  by rewrite append_cons, IH.
Qed.

Lemma string_of_list_byte_nil (b : Buffer) :
  String.string_of_list_byte b = "" → b = [].
Proof. by destruct b. Qed.

(** ASCII bytes decode to themselves. *)
Lemma utf8_decode_ascii (bytes : Buffer) :
  Forall is_ascii bytes →
  utf8_decode None bytes = String.string_of_list_byte bytes.
Proof.
  induction 1 as [|b bytes Hb _ IH]; [done|].
  cbn [utf8_decode]. unfold lead.
  assert (within 0x00 0x7F b = true) as ->.
  { unfold within. apply andb_true_intro. split; apply N.leb_le; [lia|exact Hb]. }
  by rewrite IH.
Qed.

(** However ASCII bytes are cut into chunks, the chunks decoded one by one
    make up the bytes. *)
Lemma Buffer_toString_ascii_chunks (chunks : list Buffer) :
  Forall is_ascii (mjoin chunks) →
  String.concat "" (Buffer_toString <$> chunks)
  = String.string_of_list_byte (mjoin chunks).
Proof.
  induction chunks as [|chunk chunks IH]; [done|].
  cbn [mjoin list_join]. intros [Hchunk Hrest]%Forall_app.
  rewrite fmap_cons, concat_cons, string_of_list_byte_app, IH by done.
  unfold Buffer_toString. by rewrite utf8_decode_ascii.
Qed.

Lemma append_nil s t : s +:+ t = "" → s = "" ∧ t = "".
Proof. by destruct s. Qed.

Lemma lead_silent b text state :
  lead b = (text, state) → text = "" → is_Some state.
Proof.
  unfold lead. repeat case_match; intros [= <- <-]; try done; discriminate.
Qed.

(** Decoding gives the empty string for the empty buffer only. *)
Lemma utf8_decode_empty state (bytes : Buffer) :
  utf8_decode state bytes = "" → state = None ∧ bytes = [].
Proof.
  revert state. induction bytes as [|b bytes IH]; intros state Hempty.
  - by destruct state.
  - exfalso. cbn [utf8_decode] in Hempty. destruct state as [s|].
    + destruct (within (lower s) (upper s) b).
      * destruct (more s).
        -- apply append_nil in Hempty as [Hseen%string_of_list_byte_nil _].
           by destruct (seen s).
        -- by apply IH in Hempty as [? _].
      * destruct (lead b). by apply append_nil in Hempty as [? _].
    + destruct (lead b) as [text state] eqn:Hlead.
      apply append_nil in Hempty as [Htext [Hstate _]%IH].
      apply (lead_silent _ _ _ Hlead) in Htext as [? ->]. done.
Qed.

Lemma Buffer_toString_chunks_empty (chunks : list Buffer) :
  String.concat "" (Buffer_toString <$> chunks) = "" ↔ mjoin chunks = [].
Proof.
  induction chunks as [|chunk chunks IH]; [done|].
  rewrite fmap_cons, concat_cons. cbn [mjoin list_join]. split.
  - intros [[_ ->]%utf8_decode_empty Hrest]%append_nil. by apply IH.
  - intros [-> Hrest]%app_eq_nil. apply IH in Hrest. by rewrite Hrest.
Qed.

(** ** The body reader *)

Lemma readPostBody_loop_data postBody (chunks : list Buffer) rest :
  readPostBody_loop postBody ((Data <$> chunks) ++ rest)
  = readPostBody_loop
      (postBody +:+ String.concat "" (Buffer_toString <$> chunks)) rest.
Proof.
  revert postBody. induction chunks as [|chunk chunks IH]; intros postBody.
  - by rewrite append_nil_r.
  - rewrite !fmap_cons, <- app_comm_cons. cbn [readPostBody_loop].
    by rewrite IH, concat_cons, append_assoc.
Qed.

(** While the stream has only delivered chunks, nothing is returned. *)
Lemma readPostBody_loop_pending postBody (chunks : list Buffer) :
  readPostBody_loop postBody (Data <$> chunks) = (Pending, []).
Proof.
  rewrite <- (app_nil_r (Data <$> chunks)). by rewrite readPostBody_loop_data.
Qed.

(** At the end of the stream the promise resolves with the chunks' texts,
    each chunk decoded on its own, in arrival order. *)
Lemma readPostBody_eof (chunks : list Buffer) rest p :
  stdin p = (Data <$> chunks) ++ Eof :: rest →
  readPostBody p =
    (Resolved (String.concat "" (Buffer_toString <$> chunks)),
     {| httpHeader := httpHeader p; stdout := stdout p; stdin := rest |}).
Proof.
  intros Hin. unfold readPostBody. by rewrite Hin, readPostBody_loop_data.
Qed.

(** C4, at a body whose only character is cut by a chunk boundary: the two
    bytes of [é] arriving as two chunks are each decoded alone, and
    [readPostBody] resolves with two U+FFFD; arriving as one chunk they give
    [é], which is also what the two chunks put together decode to. *)
Theorem readPostBody_split_character :
  (readPostBody (init [Data [Byte.xc3]; Data [Byte.xa9]; Eof])).1
  = Resolved (replacement +:+ replacement)
  ∧ (readPostBody (init [Data [Byte.xc3; Byte.xa9]; Eof])).1
    = Resolved (String.string_of_list_byte [Byte.xc3; Byte.xa9])
  ∧ Buffer_toString ([Byte.xc3] ++ [Byte.xa9])
    = String.string_of_list_byte [Byte.xc3; Byte.xa9]
  ∧ replacement +:+ replacement
    ≠ String.string_of_list_byte [Byte.xc3; Byte.xa9].
Proof. split_and!; try reflexivity. discriminate. Qed.

(** ** The main flow *)

(** Everything [main] writes when it starts a response. *)
Lemma main_init env postBody input :
  main env postBody (init input) =
    {| httpHeader := VString "html";
       stdout :=
         [ header_write httpHeaders.html;
           html_preamble +:+ nl;
           "<h1>Hello Node.js CGI</h1>" +:+ nl;
           "<pre> " +:+ inspect_env env +:+ " </pre>" +:+ nl ]
         ++ (if truthy (argument postBody)
             then [ "<hr>" +:+ nl;
                    "<h2>Post Body</h2>" +:+ nl;
                    "<pre> " +:+ format (argument postBody) +:+ " </pre>" +:+ nl ]
             else [])
         ++ [ "<hr>" +:+ nl;
              "<h2>POST Test</h2>" +:+ nl;
              html_form env +:+ nl;
              html_epilogue +:+ nl ];
       stdin := input |}.
Proof.
  unfold main. change (httpHeaders.type httpHeaders.html) with "html".
  rewrite writeHttpHeader_html by done.
  destruct (truthy (argument postBody));
    unfold console_log, init; cbn [httpHeader stdout stdin app]; text_eq.
Qed.

Lemma main_stdout_init env postBody input :
  stdout (main env postBody (init input)) = stdout (main env postBody (init [])).
Proof. by rewrite !main_init. Qed.

Lemma main_stdin_init env postBody input :
  stdin (main env postBody (init input)) = input.
Proof. by rewrite main_init. Qed.

(** A body that is absent or empty adds nothing to the response. *)
Lemma main_empty_body env input :
  stdout (main env (Some "") (init input)) = stdout (main env None (init input)).
Proof. by rewrite !main_init. Qed.

(** ** The entry point *)

Lemma entry_post env (chunks : list Buffer) rest :
  env !! "REQUEST_METHOD" = Some "POST" →
  entry env (init ((Data <$> chunks) ++ Eof :: rest))
  = main env (Some (String.concat "" (Buffer_toString <$> chunks))) (init rest).
Proof.
  intros Hpost. unfold entry. rewrite bool_decide_eq_true_2 by done.
  by rewrite (readPostBody_eof chunks rest).
Qed.

Lemma entry_no_post env input :
  env !! "REQUEST_METHOD" ≠ Some "POST" →
  entry env (init input) = main env None (init input).
Proof. intros Hother. unfold entry. by rewrite bool_decide_eq_false_2. Qed.

(** C5, as the code has it: for the environment [REQUEST_METHOD=POST],
    [SCRIPT_NAME=/app.cgi], which [util.inspect] prints as
    [{ REQUEST_METHOD: 'POST', SCRIPT_NAME: '/app.cgi' }], and a standard
    input that delivers the bytes of [text=hi] (in any chunks) and closes,
    the output begins with the html header block; contains that dump between
    [<pre>] and [</pre>], so it shows [REQUEST_METHOD: 'POST'], the value in
    quotes; contains the body section showing [text=hi]; and contains a form
    whose action is [/app.cgi]. *)
Theorem post_scenario_quoted (chunks : list Buffer) rest :
  mjoin chunks = Buffer_from "text=hi" →
  inspect_env scenario_env
  = "{ REQUEST_METHOD: 'POST', SCRIPT_NAME: '/app.cgi' }" →
  let p := entry scenario_env (init ((Data <$> chunks) ++ Eof :: rest)) in
  begins_with ("Content-Type: text/html; charset=UTF-8" +:+ nl +:+ nl)
    (stdout_text p)
  ∧ contains
      ("<pre> { REQUEST_METHOD: 'POST', SCRIPT_NAME: '/app.cgi' } </pre>")
      (stdout_text p)
  ∧ contains "REQUEST_METHOD: 'POST'" (stdout_text p)
  ∧ contains ("<h2>Post Body</h2>" +:+ nl +:+ "<pre> text=hi </pre>")
      (stdout_text p)
  ∧ contains ("<form action=" +:+ dq +:+ "/app.cgi" +:+ dq +:+ " method=" +:+ dq
               +:+ "POST" +:+ dq +:+ ">")
      (stdout_text p).
Proof.
  intros Hbytes Hdump p. subst p.
  assert (String.concat "" (Buffer_toString <$> chunks) = "text=hi") as Hbody.
  { rewrite Buffer_toString_ascii_chunks; rewrite Hbytes; [done|].
    unfold is_ascii. apply (bool_decide_unpack _). reflexivity. }
  rewrite entry_post, Hbody by done.
  unfold stdout_text. rewrite main_init, Hdump.
  change (truthy (argument (Some "text=hi"))) with true.
  cbv iota; cbn [stdout app].
  assert (contains
            ("<pre> { REQUEST_METHOD: 'POST', SCRIPT_NAME: '/app.cgi' } </pre>")
            ("<pre> " +:+ "{ REQUEST_METHOD: 'POST', SCRIPT_NAME: '/app.cgi' }"
               +:+ " </pre>" +:+ nl)) as Hline
    by (by exists "", nl).
  split_and!.
  - eexists. rewrite concat_cons. unfold header_write.
    change (httpHeaders.httpHeader httpHeaders.html)
      with ("Content-Type: text/html; charset=UTF-8" +:+ nl +:+ nl).
    by rewrite append_assoc.
  - eapply contains_concat; [|exact Hline].
    do 3 apply list_elem_of_further. apply list_elem_of_here.
  - eapply contains_concat.
    + do 3 apply list_elem_of_further. apply list_elem_of_here.
    + by exists "<pre> { ", (", SCRIPT_NAME: '/app.cgi' } </pre>" +:+ nl).
  - exists (String.concat ""
              [ header_write httpHeaders.html; html_preamble +:+ nl;
                "<h1>Hello Node.js CGI</h1>" +:+ nl;
                "<pre> " +:+ "{ REQUEST_METHOD: 'POST', SCRIPT_NAME: '/app.cgi' }"
                  +:+ " </pre>" +:+ nl;
                "<hr>" +:+ nl ]),
           (nl +:+ String.concat ""
              [ "<hr>" +:+ nl; "<h2>POST Test</h2>" +:+ nl;
                html_form scenario_env +:+ nl; html_epilogue +:+ nl ]).
    rewrite !concat_cons. change (String.concat "" []) with "".
    rewrite ?append_nil_r. unfold format, argument, from_option.
    rewrite ?append_assoc. reflexivity.
  - eapply contains_concat.
    + do 9 apply list_elem_of_further. apply list_elem_of_here.
    + eexists "", _. unfold html_form, lines.
      change (interpolate (scenario_env !! "SCRIPT_NAME")) with "/app.cgi".
      cbv [String.concat]. rewrite ?append_assoc. reflexivity.
Qed.

(** C8: when [REQUEST_METHOD] is anything but [POST] (or is not set), the
    entry point runs [main] without a body and leaves standard input
    untouched, so [readPostBody] has consumed nothing, and the output is the
    same whatever standard input holds. *)
Theorem no_body_path env input1 input2 :
  env !! "REQUEST_METHOD" ≠ Some "POST" →
  entry env (init input1) = main env None (init input1)
  ∧ stdin (entry env (init input1)) = input1
  ∧ stdout (entry env (init input1)) = stdout (entry env (init input2)).
Proof.
  intros Hother. rewrite !entry_no_post by done. split_and!.
  - done.
  - apply main_stdin_init.
  - by rewrite main_stdout_init, (main_stdout_init _ _ input2).
Qed.

(** [main] writes the [Post Body] heading for a string that is not empty,
    and for nothing else. *)
Lemma main_heading env postBody input :
  "<h2>Post Body</h2>" +:+ nl ∈ stdout (main env postBody (init input))
  ↔ ∃ s, postBody = Some s ∧ s ≠ "".
Proof.
  rewrite main_init; cbn [stdout]. split.
  - intros Hin. destruct postBody as [s|].
    + exists s. split; [done|]. intros ->.
      change (truthy (argument (Some ""))) with false in Hin.
      cbn [app] in Hin. rewrite !elem_of_cons in Hin.
      destruct Hin as [H|[H|[H|[H|[H|[H|[H|[H|H]]]]]]]];
        try (by apply elem_of_nil in H);
        cbv -[interpolate lookup] in H; discriminate H.
    + change (truthy (argument None)) with false in Hin.
      cbn [app] in Hin. rewrite !elem_of_cons in Hin.
      destruct Hin as [H|[H|[H|[H|[H|[H|[H|[H|H]]]]]]]];
        try (by apply elem_of_nil in H);
        cbv -[interpolate lookup] in H; discriminate H.
  - intros (s & -> & Hne).
    assert (truthy (argument (Some s)) = true) as ->.
    { cbn. by rewrite bool_decide_eq_false_2. }
    rewrite !elem_of_app. right. left.
    apply list_elem_of_further, list_elem_of_here.
Qed.

(** C9: a POST request whose standard input closes after an empty body
    gives the output of [main] called without a body; and [main] writes the
    [Post Body] heading exactly when it is given a string that is not
    empty. *)
Theorem empty_body_as_no_body env (chunks : list Buffer) rest :
  env !! "REQUEST_METHOD" = Some "POST" →
  String.concat "" (Buffer_toString <$> chunks) = "" →
  stdout (entry env (init ((Data <$> chunks) ++ Eof :: rest)))
  = stdout (main env None (init []))
  ∧ ∀ postBody input,
      "<h2>Post Body</h2>" +:+ nl ∈ stdout (main env postBody (init input))
      ↔ ∃ s, postBody = Some s ∧ s ≠ "".
Proof.
  intros Hpost Hempty. split.
  - rewrite entry_post, Hempty by done.
    by rewrite main_empty_body, main_stdout_init.
  - intros postBody input. rewrite main_init; cbn [stdout]. split.
    + intros Hin. destruct postBody as [s|].
      * exists s. split; [done|]. intros ->.
        change (truthy (argument (Some ""))) with false in Hin.
        cbn [app] in Hin. rewrite !elem_of_cons in Hin.
        destruct Hin as [H|[H|[H|[H|[H|[H|[H|[H|H]]]]]]]];
          try (by apply elem_of_nil in H);
          cbv -[interpolate lookup] in H; discriminate H.
      * change (truthy (argument None)) with false in Hin.
        cbn [app] in Hin. rewrite !elem_of_cons in Hin.
        destruct Hin as [H|[H|[H|[H|[H|[H|[H|[H|H]]]]]]]];
          try (by apply elem_of_nil in H);
          cbv -[interpolate lookup] in H; discriminate H.
    + intros (s & -> & Hne).
      assert (truthy (argument (Some s)) = true) as ->.
      { cbn. by rewrite bool_decide_eq_false_2. }
      rewrite !elem_of_app. right. left.
      apply list_elem_of_further, list_elem_of_here.
Qed.

(** C10: when the environment has no [SCRIPT_NAME], [main] still runs to
    its last write, and the form it writes opens with
    [<form action="undefined" method="POST">]. *)
Theorem form_action_undefined env postBody input :
  env !! "SCRIPT_NAME" = None →
  (∃ after,
     ("<form action=" +:+ dq +:+ "undefined" +:+ dq +:+ " method=" +:+ dq
        +:+ "POST" +:+ dq +:+ ">" +:+ after)
     ∈ stdout (main env postBody (init input)))
  ∧ contains ("<form action=" +:+ dq +:+ "undefined" +:+ dq)
      (stdout_text (main env postBody (init input)))
  ∧ last (stdout (main env postBody (init input))) = Some (html_epilogue +:+ nl).
Proof.
  intros Hunset.
  assert (∃ after,
    html_form env +:+ nl =
      "<form action=" +:+ dq +:+ "undefined" +:+ dq +:+ " method=" +:+ dq
        +:+ "POST" +:+ dq +:+ ">" +:+ after) as [after Hform].
  { eexists. unfold html_form, lines. rewrite Hunset.
    change (interpolate None) with "undefined".
    cbv [String.concat]. rewrite ?append_assoc. reflexivity. }
  assert (html_form env +:+ nl ∈ stdout (main env postBody (init input))) as Hin.
  { rewrite main_init; cbn [stdout]. rewrite !elem_of_app. right. right.
    do 2 apply list_elem_of_further. apply list_elem_of_here. }
  split_and!.
  - exists after. by rewrite <- Hform.
  - eapply contains_concat; [exact Hin|].
    rewrite Hform. eexists "", _. rewrite ?append_assoc. reflexivity.
  - rewrite main_init; cbn [stdout].
    by destruct (truthy (argument postBody)).
Qed.

(** * Further properties of the script *)

(** ** The header gate, for every name *)

Lemma writeHttpHeader_not_null type p :
  httpHeader (writeHttpHeader type p) ≠ VNull.
Proof.
  unfold writeHttpHeader. destruct (httpHeader p) eqn:Hstate; cbn;
    try (by rewrite Hstate).
  by destruct (default (Own httpHeaders.plain) (httpHeaders_get type)).
Qed.

Lemma writeHttpHeader_length type p :
  length (stdout (writeHttpHeader type p)) ≤ length (stdout p) + 1.
Proof.
  unfold writeHttpHeader. destruct (strict_ne_null (httpHeader p)); cbn.
  - lia.
  - rewrite length_app; cbn. lia.
Qed.

(** X1: whatever names are passed, inherited ones included, only the first
    of a run of calls can act: the later calls change nothing, the state is
    not [null] afterwards, and at most one write was made. *)
Theorem header_gate_acts_once type types p :
  writeHttpHeader_calls (type :: types) p = writeHttpHeader type p
  ∧ httpHeader (writeHttpHeader_calls (type :: types) p) ≠ VNull
  ∧ length (stdout (writeHttpHeader_calls (type :: types) p))
    ≤ length (stdout p) + 1.
Proof.
  assert (writeHttpHeader_calls (type :: types) p = writeHttpHeader type p) as ->.
  { unfold writeHttpHeader_calls; cbn [foldl].
    apply writeHttpHeader_calls_noop, writeHttpHeader_not_null. }
  split_and!; [done | apply writeHttpHeader_not_null | apply writeHttpHeader_length].
Qed.

(** X2: when the first name is not one inherited from [Object.prototype],
    a run of calls writes exactly one header block, the [html] one if that
    name is [html] and the [plain] one for every other name, and the state
    records which. *)
Theorem header_gate_own_kinds type types p :
  httpHeader p = VNull → type ∉ objectPrototypeKeys →
  (type = "html" →
   writeHttpHeader_calls (type :: types) p =
     {| httpHeader := VString "html";
        stdout := stdout p
          ++ ["Content-Type: text/html; charset=UTF-8" +:+ nl +:+ nl +:+ nl];
        stdin := stdin p |})
  ∧ (type ≠ "html" →
     writeHttpHeader_calls (type :: types) p =
       {| httpHeader := VString "plain";
          stdout := stdout p
            ++ ["Content-Type: text/plain; charset=UTF-8" +:+ nl +:+ nl +:+ nl];
          stdin := stdin p |})
  ∧ header_blocks (writeHttpHeader_calls (type :: types) p)
    = header_blocks p + 1.
Proof.
  intros Hnull Hown.
  assert (writeHttpHeader_calls (type :: types) p = writeHttpHeader type p) as ->.
  { unfold writeHttpHeader_calls; cbn [foldl].
    apply writeHttpHeader_calls_noop, writeHttpHeader_not_null. }
  rewrite writeHttpHeader_first by done. unfold selected. split_and!.
  - intros ->. by rewrite decide_True.
  - intros Hother. by rewrite decide_False.
  - erewrite header_blocks_app by reflexivity. by case_decide.
Qed.

(** X3: a first call with any name inherited from [Object.prototype]
    prints the line [undefined] and leaves the state [undefined]. *)
Theorem writeHttpHeader_inherited type p :
  httpHeader p = VNull → type ∈ objectPrototypeKeys →
  writeHttpHeader type p =
    {| httpHeader := VUndefined;
       stdout := stdout p ++ ["undefined" +:+ nl];
       stdin := stdin p |}.
Proof.
  intros Hnull Hin. unfold writeHttpHeader. rewrite Hnull; cbn.
  assert (httpHeaders_get type = Some (Inherited type)) as ->; [|done].
  unfold httpHeaders_get. repeat case_decide; subst; try done.
  - by apply (bool_decide_pack _) in Hin.
  - by apply (bool_decide_pack _) in Hin.
Qed.

(** ** The error interceptor, once a header state is set *)

Lemma onError_gate_closed error p :
  httpHeader p ≠ VNull →
  onError error p =
    if strict_eq_string (httpHeader p) (httpHeaders.type httpHeaders.html)
    then console_log
           [ VString ("<pre style=" +:+ dq +:+ "color: #f00; font-weight: bold;"
                      +:+ dq +:+ ">Error :<br>");
             error;
             VString "</pre>" ] p
    else console_log [ VString (nl +:+ "Error :"); error ] p.
Proof.
  intros Hset. unfold onError.
  by destruct (negb (truthy (httpHeader p))); rewrite ?writeHttpHeader_noop.
Qed.

Lemma error_line_not_header error :
  ¬ is_header_write (nl +:+ "Error : " +:+ format error +:+ nl).
Proof. intros [H|H]; discriminate H. Qed.

Lemma error_block_not_header error :
  ¬ is_header_write
      ("<pre style=" +:+ dq +:+ "color: #f00; font-weight: bold;" +:+ dq
         +:+ ">Error :<br> " +:+ format error +:+ " </pre>" +:+ nl).
Proof. intros [H|H]; discriminate H. Qed.

Lemma onError_set error p :
  httpHeader p ≠ VNull →
  ∃ w, ¬ is_header_write w
       ∧ onError error p =
           {| httpHeader := httpHeader p;
              stdout := stdout p ++ [w];
              stdin := stdin p |}.
Proof.
  intros Hset. rewrite onError_gate_closed by done.
  destruct (strict_eq_string _ _).
  - eexists. split; [apply (error_block_not_header error)|].
    unfold console_log. f_equal. f_equal. text_eq.
  - eexists. split; [apply (error_line_not_header error)|].
    unfold console_log. f_equal.
Qed.

Lemma onError_not_null error p : httpHeader (onError error p) ≠ VNull.
Proof.
  assert (httpHeader p = VNull ∨ httpHeader p ≠ VNull) as [Hnull|Hset]
    by (destruct (httpHeader p); auto).
  - by rewrite onError_null.
  - destruct (onError_set error p Hset) as (w & _ & ->). done.
Qed.

Lemma header_blocks_snoc p q w :
  ¬ is_header_write w → stdout q = stdout p ++ [w] →
  header_blocks q = header_blocks p.
Proof.
  intros Hw Hout. rewrite (header_blocks_app p q [w]) by done.
  rewrite filter_cons_False by done. cbn. lia.
Qed.

(** X4: called after the [plain] header was written, [onError] makes one
    write, the line [Error :] with the error, and leaves the state
    [plain]. *)
Theorem onError_after_plain_header error p :
  httpHeader p = VString "plain" →
  onError error p =
    {| httpHeader := VString "plain";
       stdout := stdout p ++ [ nl +:+ "Error : " +:+ format error +:+ nl ];
       stdin := stdin p |}.
Proof.
  intros Hplain. rewrite onError_gate_closed by (by rewrite Hplain).
  rewrite Hplain.
  assert (strict_eq_string (VString "plain")
            (httpHeaders.type httpHeaders.html) = false) as -> by reflexivity.
  unfold console_log. by rewrite Hplain.
Qed.

(** X5: whenever the state is not [null], whatever it is, [onError] makes
    exactly one write, writes no header block and keeps the state. *)
Theorem onError_no_second_header error p :
  httpHeader p ≠ VNull →
  httpHeader (onError error p) = httpHeader p
  ∧ length (stdout (onError error p)) = length (stdout p) + 1
  ∧ header_blocks (onError error p) = header_blocks p.
Proof.
  intros Hset. destruct (onError_set error p Hset) as (w & Hw & Heq).
  rewrite Heq. split_and!.
  - done.
  - cbn. rewrite length_app. cbn. lia.
  - by apply (header_blocks_snoc p _ w).
Qed.

(** X6: a failure that reaches the [uncaughtException] hook after
    [onError] has already run once adds one write and no header block, and
    keeps the state. *)
Theorem uncaughtException_after_onError error1 error2 p :
  httpHeader (uncaughtException error2 (onError error1 p))
  = httpHeader (onError error1 p)
  ∧ header_blocks (uncaughtException error2 (onError error1 p))
    = header_blocks (onError error1 p)
  ∧ length (stdout (uncaughtException error2 (onError error1 p)))
    = length (stdout (onError error1 p)) + 1.
Proof.
  unfold uncaughtException.
  destruct (onError_set error2 (onError error1 p) (onError_not_null error1 p))
    as (w & Hw & Heq).
  rewrite Heq. split_and!.
  - done.
  - by apply (header_blocks_snoc (onError error1 p) _ w).
  - cbn. rewrite length_app. cbn. lia.
Qed.

(** ** The body reader and the entry point *)

(** X7: when the stream fails after delivering some chunks, [readPostBody]
    rejects with that failure; the chunks read so far are lost, and nothing
    after the failure is read. *)
Theorem readPostBody_stream_error (chunks : list Buffer) error rest p :
  stdin p = (Data <$> chunks) ++ StreamError error :: rest →
  readPostBody p =
    (Rejected error,
     {| httpHeader := httpHeader p; stdout := stdout p; stdin := rest |}).
Proof.
  intros Hin. unfold readPostBody. by rewrite Hin, readPostBody_loop_data.
Qed.

Lemma readPostBody_init input :
  readPostBody (init input)
  = ((readPostBody_loop "" input).1, init (readPostBody_loop "" input).2).
Proof.
  unfold readPostBody; cbn [stdin init].
  by destruct (readPostBody_loop "" input).
Qed.

(** A run of the script from its start ends in one of three ways. *)
Lemma entry_cases env input :
  (∃ rest, entry env (init input) = init rest)
  ∨ (∃ postBody rest, entry env (init input) = main env postBody (init rest))
  ∨ (∃ error rest, entry env (init input) = onError error (init rest)).
Proof.
  unfold entry. case_bool_decide; [|by right; left; eexists _, _].
  rewrite readPostBody_init.
  destruct (readPostBody_loop "" input) as [[postBody|error|] rest]; cbn.
  - right; left. by eexists _, _.
  - right; right. by eexists _, _.
  - left. by eexists.
Qed.

Lemma main_header_blocks_init env postBody input :
  header_blocks (main env postBody (init input)) = 1.
Proof.
  rewrite main_init. unfold header_blocks; cbn [stdout].
  by destruct (truthy (argument postBody)).
Qed.

(** X8: whatever the environment and whatever standard input does, a run
    of the script either writes nothing (the POST body never ended) or
    writes a header block first and no other header block after it; the
    state ends [null], [html] or [plain] accordingly, never anything
    else. *)
Theorem entry_header_first env input :
  (stdout (entry env (init input)) = []
   ∧ httpHeader (entry env (init input)) = VNull)
  ∨ (∃ h rest,
       (h = httpHeaders.plain ∨ h = httpHeaders.html)
       ∧ stdout (entry env (init input))
         = (httpHeaders.httpHeader h +:+ nl) :: rest
       ∧ httpHeader (entry env (init input)) = VString (httpHeaders.type h)
       ∧ header_blocks (entry env (init input)) = 1).
Proof.
  destruct (entry_cases env input)
    as [[rest ->]|[(postBody & rest & ->)|(error & rest & ->)]].
  - by left.
  - right. exists httpHeaders.html. eexists. split; [by right|].
    rewrite main_header_blocks_init, main_init. cbn [stdout httpHeader].
    split_and!; reflexivity.
  - right. exists httpHeaders.plain. eexists. split; [by left|].
    rewrite onError_null by done. split_and!; reflexivity.
Qed.

(** X9: when a POST request's standard input fails before it ends, the
    response is the plain header block and the error line; the chunks
    received before the failure appear nowhere. *)
Theorem entry_stream_failure env (chunks : list Buffer) error rest :
  env !! "REQUEST_METHOD" = Some "POST" →
  entry env (init ((Data <$> chunks) ++ StreamError error :: rest))
  = {| httpHeader := VString "plain";
       stdout :=
         [ "Content-Type: text/plain; charset=UTF-8" +:+ nl +:+ nl +:+ nl;
           nl +:+ "Error : " +:+ format error +:+ nl ];
       stdin := rest |}.
Proof.
  intros Hpost. unfold entry. rewrite bool_decide_eq_true_2 by done.
  rewrite readPostBody_init, readPostBody_loop_data.
  cbn [readPostBody_loop fst snd]. by rewrite onError_null.
Qed.

(** X10: as long as a POST request's standard input has delivered chunks
    but has not ended, the script has written nothing and the state is still
    [null]. *)
Theorem entry_waits_for_end env (chunks : list Buffer) :
  env !! "REQUEST_METHOD" = Some "POST" →
  stdout (entry env (init (Data <$> chunks))) = []
  ∧ httpHeader (entry env (init (Data <$> chunks))) = VNull.
Proof.
  intros Hpost. unfold entry. rewrite bool_decide_eq_true_2 by done.
  by rewrite readPostBody_init, readPostBody_loop_pending.
Qed.

(** X11: a POST body of ASCII bytes that is not empty is written back
    between [<pre>] and [</pre>] byte for byte, however it was cut into
    chunks: nothing is escaped or dropped. *)
Theorem entry_body_verbatim env (chunks : list Buffer) rest :
  env !! "REQUEST_METHOD" = Some "POST" →
  Forall is_ascii (mjoin chunks) →
  mjoin chunks ≠ [] →
  ("<pre> " +:+ String.string_of_list_byte (mjoin chunks) +:+ " </pre>" +:+ nl)
  ∈ stdout (entry env (init ((Data <$> chunks) ++ Eof :: rest))).
Proof.
  intros Hpost Hascii Hbody.
  rewrite entry_post, Buffer_toString_ascii_chunks, main_init by done.
  cbn [stdout].
  assert (truthy (argument (Some (String.string_of_list_byte (mjoin chunks))))
          = true) as ->.
  { cbn. rewrite bool_decide_eq_false_2; [done|].
    by intros ?%string_of_list_byte_nil. }
  rewrite !elem_of_app. right. left.
  do 2 apply list_elem_of_further. apply list_elem_of_here.
Qed.

(** X12: two POST requests in the same environment whose bodies are the
    same ASCII bytes get the same response, however each body was cut into
    chunks and whatever follows the end of the stream. *)
Theorem entry_chunking_irrelevant env (chunks1 chunks2 : list Buffer)
    rest1 rest2 :
  env !! "REQUEST_METHOD" = Some "POST" →
  mjoin chunks1 = mjoin chunks2 →
  Forall is_ascii (mjoin chunks1) →
  stdout (entry env (init ((Data <$> chunks1) ++ Eof :: rest1)))
  = stdout (entry env (init ((Data <$> chunks2) ++ Eof :: rest2))).
Proof.
  intros Hpost Hsame Hascii. rewrite !entry_post by done.
  rewrite !Buffer_toString_ascii_chunks by (by rewrite <- ?Hsame).
  by rewrite Hsame, main_stdout_init, (main_stdout_init _ _ rest2).
Qed.

(** X16: for a body of ASCII bytes, however it is cut into chunks,
    [readPostBody] resolves with exactly those bytes, in order, once the
    stream has ended, and not before: after any number of the chunks it is
    still pending. *)
Theorem readPostBody_ascii (chunks : list Buffer) rest p :
  stdin p = (Data <$> chunks) ++ Eof :: rest →
  Forall is_ascii (mjoin chunks) →
  readPostBody p =
    (Resolved (String.string_of_list_byte (mjoin chunks)),
     {| httpHeader := httpHeader p; stdout := stdout p; stdin := rest |})
  ∧ ∀ n, (readPostBody
            {| httpHeader := httpHeader p; stdout := stdout p;
               stdin := Data <$> take n chunks |}).1 = Pending.
Proof.
  intros Hin Hascii. split.
  - by rewrite (readPostBody_eof chunks rest), Buffer_toString_ascii_chunks.
  - intros n. unfold readPostBody; cbn [stdin].
    by rewrite readPostBody_loop_pending.
Qed.

(** X17: for a POST request whose standard input ends, the [Post Body]
    heading is written exactly when at least one byte arrived, whatever the
    bytes are. *)
Theorem entry_heading_iff_bytes env (chunks : list Buffer) rest :
  env !! "REQUEST_METHOD" = Some "POST" →
  "<h2>Post Body</h2>" +:+ nl
    ∈ stdout (entry env (init ((Data <$> chunks) ++ Eof :: rest)))
  ↔ mjoin chunks ≠ [].
Proof.
  intros Hpost. rewrite entry_post, main_heading by done.
  rewrite <- Buffer_toString_chunks_empty. split.
  - by intros (s & [= <-] & Hne).
  - intros Hne. by eexists.
Qed.

(** ** The main flow *)

(** X13: the value of [SCRIPT_NAME] goes into the form's [action] attribute
    as it is. *)
Theorem form_action_verbatim env script postBody input :
  env !! "SCRIPT_NAME" = Some script →
  ∃ after,
    ("<form action=" +:+ dq +:+ script +:+ dq +:+ " method=" +:+ dq
       +:+ "POST" +:+ dq +:+ ">" +:+ after)
    ∈ stdout (main env postBody (init input)).
Proof.
  intros Hscript.
  exists (nl +:+ lines
            [ "  <input type=" +:+ dq +:+ "text" +:+ dq +:+ " name=" +:+ dq
                +:+ "text" +:+ dq +:+ " value=" +:+ dq +:+ dq +:+ ">";
              "  <button name=" +:+ dq +:+ "submit-btn" +:+ dq +:+ " value="
                +:+ dq +:+ "submit-btn-value" +:+ dq
                +:+ ">Post Submit</button>";
              "</form>" ] +:+ nl).
  assert (html_form env +:+ nl ∈ stdout (main env postBody (init input))) as Hin.
  { rewrite main_init; cbn [stdout]. rewrite !elem_of_app. right. right.
    do 2 apply list_elem_of_further. apply list_elem_of_here. }
  revert Hin. unfold html_form, lines. rewrite Hscript.
  change (interpolate (Some script)) with script.
  cbv [String.concat]. by rewrite ?append_assoc.
Qed.

(** What [main] writes after the header gate, in any process. *)
Lemma main_after_gate env postBody p :
  main env postBody p =
    {| httpHeader := httpHeader (writeHttpHeader "html" p);
       stdout := stdout (writeHttpHeader "html" p)
                 ++ drop 1 (stdout (main env postBody (init [])));
       stdin := stdin (writeHttpHeader "html" p) |}.
Proof.
  rewrite main_init; cbn [stdout]. unfold main.
  change (httpHeaders.type httpHeaders.html) with "html".
  destruct (truthy (argument postBody));
    unfold console_log; cbn [httpHeader stdout stdin app drop];
    rewrite <- ?(assoc_L (++)); cbn [app]; text_eq.
Qed.

(** X14: in a process whose state is not [null], [main] writes its page
    without any header block and keeps the state. *)
Theorem main_no_second_header env postBody p :
  httpHeader p ≠ VNull →
  httpHeader (main env postBody p) = httpHeader p
  ∧ header_blocks (main env postBody p) = header_blocks p
  ∧ stdout (main env postBody p)
    = stdout p ++ drop 1 (stdout (main env postBody (init []))).
Proof.
  intros Hset. rewrite main_after_gate, writeHttpHeader_noop by done.
  cbn [httpHeader stdout]. split_and!; [done| |done].
  erewrite header_blocks_app by reflexivity.
  rewrite main_init; cbn [stdout].
  destruct (truthy (argument postBody));
    change (length (filter _ _)) with 0; lia.
Qed.

(** X15: a failure handled after [main] has run in a fresh process is
    reported in the page: the response then holds [main]'s writes followed by
    the red [<pre>] block, still with a single header block. *)
Theorem onError_after_main env postBody input error :
  stdout (onError error (main env postBody (init input)))
  = stdout (main env postBody (init input))
    ++ [ "<pre style=" +:+ dq +:+ "color: #f00; font-weight: bold;" +:+ dq
           +:+ ">Error :<br> " +:+ format error +:+ " </pre>" +:+ nl ]
  ∧ header_blocks (onError error (main env postBody (init input))) = 1.
Proof.
  assert (httpHeader (main env postBody (init input)) = VString "html") as Hhtml
    by (by rewrite main_init).
  rewrite onError_html by done. split; [done|].
  erewrite header_blocks_app by reflexivity.
  rewrite main_header_blocks_init. by change (length (filter _ _)) with 0.
Qed.

End Program.

(** * Examples *)

(** An unrecognised name that no object inherits falls back to [plain]. *)
Example writeHttpHeader_json :
  writeHttpHeader inspect_no_object inspect_env_mark "json" (init [])
  = {| httpHeader := VString "plain";
       stdout := ["Content-Type: text/plain; charset=UTF-8" +:+ nl +:+ nl +:+ nl];
       stdin := [] |}.
Proof.
  apply (writeHttpHeader_fallback inspect_no_object inspect_env_mark "json");
    [reflexivity | discriminate | discriminate |].
  apply (bool_decide_unpack _). reflexivity.
Qed.

(** The gate called three times, first with [html]. *)
Example writeHttpHeader_calls_html :
  writeHttpHeader_calls inspect_no_object inspect_env_mark
    ["html"; "plain"; "toString"] (init [])
  = {| httpHeader := VString "html";
       stdout := ["Content-Type: text/html; charset=UTF-8" +:+ nl +:+ nl +:+ nl];
       stdin := [] |}.
Proof. reflexivity. Qed.

(** C7: the first call with [plain] does not write just the header line and
    the blank line; a third line feed follows them. *)
Lemma writeHttpHeader_plain_not_exact :
  stdout_text (writeHttpHeader inspect_no_object inspect_env_mark "plain" (init []))
  ≠ "Content-Type: text/plain; charset=UTF-8" +:+ nl +:+ nl.
Proof. intros H. vm_compute in H. discriminate H. Qed.

Lemma writeHttpHeader_first_write_witness :
  httpHeader (init (object := no_object) []) = VNull
  ∧ stdout (writeHttpHeader inspect_no_object inspect_env_mark "plain" (init []))
    = ["Content-Type: text/plain; charset=UTF-8" +:+ nl +:+ nl +:+ nl].
Proof.
  split; [reflexivity|].
  exact (proj1 (writeHttpHeader_first_write
                  inspect_no_object inspect_env_mark (init []) eq_refl)).
Defined.

Lemma onError_before_header_witness :
  httpHeader (init (object := no_object) []) = VNull
  ∧ onError inspect_no_object inspect_env_mark (VString "boom") (init [])
    = {| httpHeader := VString "plain";
         stdout :=
           [ "Content-Type: text/plain; charset=UTF-8" +:+ nl +:+ nl +:+ nl;
             nl +:+ "Error : boom" +:+ nl ];
         stdin := [] |}.
Proof.
  split; [reflexivity|].
  exact (proj1 (onError_before_header
                  inspect_no_object inspect_env_mark (VString "boom")
                  (init []) eq_refl)).
Defined.

Lemma onError_after_html_header_witness :
  httpHeader (writeHttpHeader inspect_no_object inspect_env_mark "html" (init []))
  = VString "html"
  ∧ header_blocks
      (onError inspect_no_object inspect_env_mark (VString "boom")
         (writeHttpHeader inspect_no_object inspect_env_mark "html" (init [])))
    = 1.
Proof.
  split; [reflexivity|].
  exact (proj2 (onError_after_html_header
                  inspect_no_object inspect_env_mark (VString "boom")
                  (writeHttpHeader inspect_no_object inspect_env_mark "html"
                     (init []))
                  eq_refl)).
Defined.

(** C5: with the dump as [util.inspect] prints it, the words
    [REQUEST_METHOD: POST] are nowhere in the output of the scenario: the
    value stands in quotes. *)
Lemma post_scenario_unquoted_absent :
  ¬ contains "REQUEST_METHOD: POST"
      (stdout_text
         (entry inspect_no_object
            (inspect_env_line ["REQUEST_METHOD"; "SCRIPT_NAME"]) scenario_env
            (init [Data (Buffer_from "text=hi"); Eof]))).
Proof. intros H%contains_includes. vm_compute in H. discriminate H. Qed.

Lemma post_scenario_quoted_witness :
  mjoin [Buffer_from "text="; Buffer_from "hi"] = Buffer_from "text=hi"
  ∧ inspect_env_line ["REQUEST_METHOD"; "SCRIPT_NAME"] scenario_env
    = "{ REQUEST_METHOD: 'POST', SCRIPT_NAME: '/app.cgi' }"
  ∧ contains "REQUEST_METHOD: 'POST'"
      (stdout_text
         (entry inspect_no_object
            (inspect_env_line ["REQUEST_METHOD"; "SCRIPT_NAME"]) scenario_env
            (init [Data (Buffer_from "text="); Data (Buffer_from "hi"); Eof]))).
Proof.
  split; [reflexivity|]. split; [reflexivity|].
  exact (proj1 (proj2 (proj2
           (post_scenario_quoted inspect_no_object
              (inspect_env_line ["REQUEST_METHOD"; "SCRIPT_NAME"])
              [Buffer_from "text="; Buffer_from "hi"] [] eq_refl eq_refl)))).
Defined.

Lemma no_body_path_witness :
  ({[ "REQUEST_METHOD" := "GET" ]} : environ) !! "REQUEST_METHOD" ≠ Some "POST"
  ∧ stdout (entry inspect_no_object inspect_env_mark
              {[ "REQUEST_METHOD" := "GET" ]}
              (init [Data (Buffer_from "text=hi"); Eof]))
    = stdout (entry inspect_no_object inspect_env_mark
                {[ "REQUEST_METHOD" := "GET" ]} (init [])).
Proof.
  assert (({[ "REQUEST_METHOD" := "GET" ]} : environ) !! "REQUEST_METHOD"
          ≠ Some "POST") as Hget.
  { intros H. vm_compute in H. discriminate H. }
  split; [exact Hget|].
  exact (proj2 (proj2 (no_body_path inspect_no_object inspect_env_mark
                         {[ "REQUEST_METHOD" := "GET" ]}
                         [Data (Buffer_from "text=hi"); Eof] [] Hget))).
Defined.

Lemma empty_body_as_no_body_witness :
  scenario_env !! "REQUEST_METHOD" = Some "POST"
  ∧ String.concat "" (Buffer_toString <$> [[]; []]) = ""
  ∧ stdout (entry inspect_no_object inspect_env_mark scenario_env
              (init [Data []; Data []; Eof]))
    = stdout (main inspect_no_object inspect_env_mark scenario_env None (init [])).
Proof.
  split; [reflexivity|]. split; [reflexivity|].
  exact (proj1 (empty_body_as_no_body inspect_no_object inspect_env_mark
                  scenario_env [[]; []] [] eq_refl eq_refl)).
Defined.

Lemma form_action_undefined_witness :
  (∅ : environ) !! "SCRIPT_NAME" = None
  ∧ contains ("<form action=" +:+ dq +:+ "undefined" +:+ dq)
      (stdout_text (main inspect_no_object inspect_env_mark ∅ None (init []))).
Proof.
  split; [reflexivity|].
  exact (proj1 (proj2 (form_action_undefined inspect_no_object inspect_env_mark
                         ∅ None [] eq_refl))).
Defined.

(** * Examples for the further properties *)

Lemma header_gate_own_kinds_witness :
  httpHeader (init (object := no_object) []) = VNull
  ∧ ("json" ∉ objectPrototypeKeys)
  ∧ "json" ≠ "html"
  ∧ writeHttpHeader_calls inspect_no_object inspect_env_mark
      ["json"; "html"] (init [])
    = {| httpHeader := VString "plain";
         stdout := ["Content-Type: text/plain; charset=UTF-8" +:+ nl +:+ nl +:+ nl];
         stdin := [] |}.
Proof.
  assert ("json" ∉ objectPrototypeKeys) as Hown
    by (apply (bool_decide_unpack _); reflexivity).
  assert ("json" ≠ "html") as Hother by discriminate.
  split_and!; [reflexivity | exact Hown | exact Hother |].
  exact (proj1 (proj2 (header_gate_own_kinds inspect_no_object inspect_env_mark
                         "json" ["html"] (init []) eq_refl Hown)) Hother).
Defined.

Lemma writeHttpHeader_inherited_witness :
  httpHeader (init (object := no_object) []) = VNull
  ∧ ("constructor" ∈ objectPrototypeKeys)
  ∧ writeHttpHeader inspect_no_object inspect_env_mark "constructor" (init [])
    = {| httpHeader := VUndefined;
         stdout := ["undefined" +:+ nl];
         stdin := [] |}.
Proof.
  assert ("constructor" ∈ objectPrototypeKeys) as Hin
    by (apply (bool_decide_unpack _); reflexivity).
  split_and!; [reflexivity | exact Hin |].
  exact (writeHttpHeader_inherited inspect_no_object inspect_env_mark
           "constructor" (init []) eq_refl Hin).
Defined.

Lemma onError_after_plain_header_witness :
  httpHeader (writeHttpHeader inspect_no_object inspect_env_mark "plain" (init []))
  = VString "plain"
  ∧ stdout
      (onError inspect_no_object inspect_env_mark (VString "boom")
         (writeHttpHeader inspect_no_object inspect_env_mark "plain" (init [])))
    = [ "Content-Type: text/plain; charset=UTF-8" +:+ nl +:+ nl +:+ nl;
        nl +:+ "Error : boom" +:+ nl ].
Proof.
  split; [reflexivity|].
  exact (f_equal stdout
           (onError_after_plain_header inspect_no_object inspect_env_mark
              (VString "boom")
              (writeHttpHeader inspect_no_object inspect_env_mark "plain"
                 (init []))
              eq_refl)).
Defined.

Lemma onError_no_second_header_witness :
  httpHeader
    (writeHttpHeader inspect_no_object inspect_env_mark "toString" (init []))
  ≠ VNull
  ∧ header_blocks
      (onError inspect_no_object inspect_env_mark VUndefined
         (writeHttpHeader inspect_no_object inspect_env_mark "toString"
            (init [])))
    = 0.
Proof.
  assert (httpHeader
            (writeHttpHeader inspect_no_object inspect_env_mark "toString"
               (init [])) ≠ VNull) as Hset
    by (intros H; vm_compute in H; discriminate H).
  split; [exact Hset|].
  exact (proj2 (proj2 (onError_no_second_header
                         inspect_no_object inspect_env_mark VUndefined
                         (writeHttpHeader inspect_no_object inspect_env_mark
                            "toString" (init []))
                         Hset))).
Defined.

Lemma readPostBody_stream_error_witness :
  stdin (init (object := no_object)
           [Data (Buffer_from "te"); StreamError (VString "EIO");
            Data (Buffer_from "xt"); Eof])
  = (Data <$> [Buffer_from "te"])
    ++ StreamError (VString "EIO") :: [Data (Buffer_from "xt"); Eof]
  ∧ readPostBody
      (init (object := no_object)
         [Data (Buffer_from "te"); StreamError (VString "EIO");
          Data (Buffer_from "xt"); Eof])
    = (Rejected (VString "EIO"), init [Data (Buffer_from "xt"); Eof]).
Proof.
  split; [reflexivity|].
  exact (readPostBody_stream_error [Buffer_from "te"] (VString "EIO")
           [Data (Buffer_from "xt"); Eof]
           (init [Data (Buffer_from "te"); StreamError (VString "EIO");
                  Data (Buffer_from "xt"); Eof])
           eq_refl).
Defined.

Lemma entry_stream_failure_witness :
  scenario_env !! "REQUEST_METHOD" = Some "POST"
  ∧ stdout (entry inspect_no_object inspect_env_mark scenario_env
              (init [Data (Buffer_from "text="); StreamError (VString "EIO")]))
    = [ "Content-Type: text/plain; charset=UTF-8" +:+ nl +:+ nl +:+ nl;
        nl +:+ "Error : EIO" +:+ nl ].
Proof.
  split; [reflexivity|].
  exact (f_equal stdout
           (entry_stream_failure inspect_no_object inspect_env_mark
              scenario_env [Buffer_from "text="] (VString "EIO") [] eq_refl)).
Defined.

Lemma entry_waits_for_end_witness :
  scenario_env !! "REQUEST_METHOD" = Some "POST"
  ∧ stdout (entry inspect_no_object inspect_env_mark scenario_env
              (init [Data (Buffer_from "text="); Data (Buffer_from "hi")]))
    = [].
Proof.
  split; [reflexivity|].
  exact (proj1 (entry_waits_for_end inspect_no_object inspect_env_mark
                  scenario_env [Buffer_from "text="; Buffer_from "hi"]
                  eq_refl)).
Defined.

Lemma entry_body_verbatim_witness :
  scenario_env !! "REQUEST_METHOD" = Some "POST"
  ∧ Forall is_ascii (mjoin [Buffer_from "<b>"; Buffer_from "&"])
  ∧ mjoin [Buffer_from "<b>"; Buffer_from "&"] ≠ []
  ∧ ("<pre> <b>& </pre>" +:+ nl)
    ∈ stdout (entry inspect_no_object inspect_env_mark scenario_env
                (init [Data (Buffer_from "<b>"); Data (Buffer_from "&"); Eof])).
Proof.
  assert (Forall is_ascii (mjoin [Buffer_from "<b>"; Buffer_from "&"]))
    as Hascii by (unfold is_ascii; apply (bool_decide_unpack _); reflexivity).
  assert (mjoin [Buffer_from "<b>"; Buffer_from "&"] ≠ []) as Hbody
    by discriminate.
  split_and!; [reflexivity | exact Hascii | exact Hbody |].
  exact (entry_body_verbatim inspect_no_object inspect_env_mark scenario_env
           [Buffer_from "<b>"; Buffer_from "&"] [] eq_refl Hascii Hbody).
Defined.

Lemma entry_chunking_irrelevant_witness :
  scenario_env !! "REQUEST_METHOD" = Some "POST"
  ∧ mjoin [Buffer_from "te"; Buffer_from "xt=hi"]
    = mjoin [Buffer_from "text="; Buffer_from "h"; Buffer_from "i"]
  ∧ Forall is_ascii (mjoin [Buffer_from "te"; Buffer_from "xt=hi"])
  ∧ stdout (entry inspect_no_object inspect_env_mark scenario_env
              (init [Data (Buffer_from "te"); Data (Buffer_from "xt=hi"); Eof]))
    = stdout (entry inspect_no_object inspect_env_mark scenario_env
                (init [Data (Buffer_from "text="); Data (Buffer_from "h");
                       Data (Buffer_from "i"); Eof; Data (Buffer_from "late")])).
Proof.
  assert (Forall is_ascii (mjoin [Buffer_from "te"; Buffer_from "xt=hi"]))
    as Hascii by (unfold is_ascii; apply (bool_decide_unpack _); reflexivity).
  split_and!; [reflexivity | reflexivity | exact Hascii |].
  exact (entry_chunking_irrelevant inspect_no_object inspect_env_mark
           scenario_env [Buffer_from "te"; Buffer_from "xt=hi"]
           [Buffer_from "text="; Buffer_from "h"; Buffer_from "i"]
           [] [Data (Buffer_from "late")] eq_refl eq_refl Hascii).
Defined.

Lemma readPostBody_ascii_witness :
  stdin (init (object := no_object)
           [Data (Buffer_from "a"); Data (Buffer_from "bc"); Eof])
  = (Data <$> [Buffer_from "a"; Buffer_from "bc"]) ++ Eof :: []
  ∧ Forall is_ascii (mjoin [Buffer_from "a"; Buffer_from "bc"])
  ∧ readPostBody
      (init (object := no_object)
         [Data (Buffer_from "a"); Data (Buffer_from "bc"); Eof])
    = (Resolved "abc", init []).
Proof.
  assert (Forall is_ascii (mjoin [Buffer_from "a"; Buffer_from "bc"]))
    as Hascii by (unfold is_ascii; apply (bool_decide_unpack _); reflexivity).
  split_and!; [reflexivity | exact Hascii |].
  exact (proj1 (readPostBody_ascii [Buffer_from "a"; Buffer_from "bc"] []
                  (init [Data (Buffer_from "a"); Data (Buffer_from "bc"); Eof])
                  eq_refl Hascii)).
Defined.

Lemma form_action_verbatim_witness :
  scenario_env !! "SCRIPT_NAME" = Some "/app.cgi"
  ∧ ∃ after,
      ("<form action=" +:+ dq +:+ "/app.cgi" +:+ dq +:+ " method=" +:+ dq
         +:+ "POST" +:+ dq +:+ ">" +:+ after)
      ∈ stdout (main inspect_no_object inspect_env_mark scenario_env None
                  (init [])).
Proof.
  split; [reflexivity|].
  exact (form_action_verbatim inspect_no_object inspect_env_mark scenario_env
           "/app.cgi" None [] eq_refl).
Defined.

Lemma main_no_second_header_witness :
  httpHeader (writeHttpHeader inspect_no_object inspect_env_mark "plain" (init []))
  ≠ VNull
  ∧ header_blocks
      (main inspect_no_object inspect_env_mark scenario_env None
         (writeHttpHeader inspect_no_object inspect_env_mark "plain" (init [])))
    = header_blocks
        (writeHttpHeader inspect_no_object inspect_env_mark "plain" (init [])).
Proof.
  assert (httpHeader
            (writeHttpHeader inspect_no_object inspect_env_mark "plain"
               (init [])) ≠ VNull) as Hset
    by (intros H; vm_compute in H; discriminate H).
  split; [exact Hset|].
  exact (proj1 (proj2 (main_no_second_header
                         inspect_no_object inspect_env_mark scenario_env None
                         (writeHttpHeader inspect_no_object inspect_env_mark
                            "plain" (init []))
                         Hset))).
Defined.

Lemma entry_heading_iff_bytes_witness :
  scenario_env !! "REQUEST_METHOD" = Some "POST"
  ∧ mjoin [[]; [Byte.xff]] ≠ []
  ∧ "<h2>Post Body</h2>" +:+ nl
      ∈ stdout (entry inspect_no_object inspect_env_mark scenario_env
                  (init [Data []; Data [Byte.xff]; Eof])).
Proof.
  assert (mjoin [[]; [Byte.xff]] ≠ []) as Hbytes by discriminate.
  split_and!; [reflexivity | exact Hbytes |].
  exact (proj2 (entry_heading_iff_bytes inspect_no_object inspect_env_mark
                  scenario_env [[]; [Byte.xff]] [] eq_refl) Hbytes).
Defined.
